(** * HTTP client and LLM client examples: a shallow embedding

    The development follows the two example scripts of the repository,
    [examples/integration-utils-http.py] ([RetryConfig], [HttpClient]) and
    [examples/llm-wrappers-basic.py] ([LLMClient]), and the back-off
    computation of [TestRetryConfig.test_backoff_calculation].

    Conventions of the embedding:
    - a Python [str] is a [string]; its characters are the code points
      below 256, one [ascii] each;
    - a Python [int] is a [Z], a Python [float] is a binary64 [float];
    - [json.dumps] belongs to the interpreter's library, not to the
      repository: the methods that call it are defined and stated for every
      [JsonModule];
    - [Optional[T]] is [option T]; for a parameter with a default value,
      [None] also stands for the omitted argument;
    - [os.environ] and the [headers] dictionary are [gmap string string];
    - a dictionary literal is an association list in the order it is
      written, read with [dict_get];
    - a method runs in the monad [Py], which threads the receiver and the
      lines written to standard output and may end in an exception. *)

From Stdlib Require QArith.
From Stdlib Require Import ZArith Ascii String Floats.
From stdpp Require Import base option list strings pretty gmap.

Set Warnings "-register-all".

Local Open Scope Z_scope.

(** ** Strings *)

Module Str.

(** [c.upper()] on one character, by its code: the letters [a]..[z]
    (97 to 122) and the accented letters 224 to 246 and 248 to 254 are
    moved down by 32, the sharp s (223) becomes [SS], every other character
    is kept.  The upper-case forms of the micro sign (181) and of the y with
    diaeresis (255) have codes above 255: there the result is no string of
    the model, and the function gives [None]. *)
Definition upper_char (c : ascii) : option string :=
  let n := nat_of_ascii c in
  if ((97 <=? n) && (n <=? 122) || (224 <=? n) && (n <=? 246)
      || (248 <=? n) && (n <=? 254))%nat
  then Some (String (ascii_of_nat (n - 32)) EmptyString)
  else if (n =? 223)%nat then Some "SS"
  else if ((n =? 181) || (n =? 255))%nat then None
  else Some (String c EmptyString).

(** [s.upper()]: the upper-case forms of the characters of [s] one after
    the other; [None] when one of them is outside the model. *)
Fixpoint upper (s : string) : option string :=
  match s with
  | EmptyString => Some EmptyString
  | String c s' => u ← upper_char c; us ← upper s'; Some (u +:+ us)
  end.

(** [s[:n]] for a non-negative [n]: the first [n] characters of [s], or
    all of [s] when it is shorter. *)
Fixpoint take (n : nat) (s : string) : string :=
  match n, s with
  | O, _ => EmptyString
  | S _, EmptyString => EmptyString
  | S n', String c s' => String c (take n' s')
  end.

(** [s[n:]] for a non-negative [n]: [s] without its first [n] characters. *)
Fixpoint drop (n : nat) (s : string) : string :=
  match n, s with
  | O, _ => s
  | S _, EmptyString => EmptyString
  | S n', String _ s' => drop n' s'
  end.

(** [s.rstrip(c)] for a one-character argument: every trailing occurrence
    of [c] is removed. *)
Fixpoint rstrip (c : ascii) (s : string) : string :=
  match s with
  | EmptyString => EmptyString
  | String a s' =>
      match rstrip c s' with
      | EmptyString => if Ascii.eqb a c then EmptyString else String a EmptyString
      | r => String a r
      end
  end.

(** [c * n]: the character [c] repeated [n] times. *)
Fixpoint repeat (c : ascii) (n : nat) : string :=
  match n with
  | O => EmptyString
  | S n' => String c (repeat c n')
  end.

(** [s.endswith(c)] for a one-character argument. *)
Fixpoint ends_with (c : ascii) (s : string) : bool :=
  match s with
  | EmptyString => false
  | String a EmptyString => Ascii.eqb a c
  | String _ s' => ends_with c s'
  end.

(** [sub in s] *)
Fixpoint contains (sub s : string) : bool :=
  String.prefix sub s ||
  match s with
  | EmptyString => false
  | String _ s' => contains sub s'
  end.

(** The positions at which [sub] occurs in [s], counted from [i] for the
    first character of [s]. *)
Fixpoint occurrences_from (i : nat) (sub s : string) : list nat :=
  (if String.prefix sub s then [i] else []) ++
  match s with
  | EmptyString => []
  | String _ s' => occurrences_from (S i) sub s'
  end.

(** The positions at which [sub] occurs in [s]: every [i] with
    [s.startswith(sub, i)]. *)
Definition occurrences (sub s : string) : list nat :=
  occurrences_from 0 sub s.

(** [sep.join(parts)] *)
Fixpoint join (sep : string) (parts : list string) : string :=
  match parts with
  | [] => EmptyString
  | [p] => p
  | p :: ps => p +:+ sep +:+ join sep ps
  end.

End Str.

(** ** Python values *)

(** The values that occur in the dictionaries of the two scripts and in
    the payloads passed to them.  A dictionary has strings as keys.
    [PObject cls] stands for an instance of any other class, named by the
    class (a [set], [bytes], a [datetime], an instance of a user class). *)
Inductive pyval : Type :=
| PNone
| PBool (b : bool)
| PInt (n : Z)
| PFloat (x : float)
| PStr (s : string)
| PList (xs : list pyval)
| PDict (kvs : list (string * pyval))
| PObject (cls : string).

Abbreviation pydict := (list (string * pyval)).

(** [d.get(k)]: the value bound to [k], if any. *)
Fixpoint dict_get (k : string) (d : pydict) : option pyval :=
  match d with
  | [] => None
  | (k', v) :: d' => if String.eqb k k' then Some v else dict_get k d'
  end.

(** Exceptions raised by the modelled code and by the library functions
    it calls. *)
Inductive exn : Type :=
| ValueError (msg : string)
| TypeError (msg : string)
| RecursionError (msg : string).

(** How a call ends. *)
Inductive outcome (A : Type) : Type :=
| Return (a : A)
| Raise (e : exn).
Arguments Return {A} a.
Arguments Raise {A} e.

#[global] Instance outcome_ret : MRet outcome := λ A a, Return a.

#[global] Instance outcome_bind : MBind outcome :=
  λ A B f r, match r with Return a => f a | Raise e => Raise e end.

#[global] Instance outcome_fmap : FMap outcome :=
  λ A B f r, match r with Return a => Return (f a) | Raise e => Raise e end.

(** [f] on every element from left to right, up to the first exception. *)
Fixpoint for_each {A B} (f : A → outcome B) (xs : list A) : outcome (list B) :=
  match xs with
  | [] => Return []
  | x :: xs' => b ← f x; bs ← for_each f xs'; Return (b :: bs)
  end.

(** ** Truth values: [bool(x)], [x or y] *)

Class Truthy (A : Type) := truthy : A → bool.

(** A string is true when it is not empty. *)
#[global] Instance truthy_string : Truthy string :=
  λ s, match s with EmptyString => false | String _ _ => true end.

(** A dictionary is true when it has an entry. *)
#[global] Instance truthy_gmap {V} : Truthy (gmap string V) :=
  λ m, negb (Nat.eqb (size m) 0).

(** [None] is false. *)
#[global] Instance truthy_option {A} `{Truthy A} : Truthy (option A) :=
  λ o, match o with None => false | Some a => truthy a end.

(** [x or y]: [x] when it is true, [y] otherwise. *)
Definition py_or {A} `{Truthy A} (x y : A) : A :=
  if truthy x then x else y.

(** [x or y] where [x] is optional and [y] is not [None]. *)
Definition py_or_else {A} `{Truthy A} (x : option A) (y : A) : A :=
  match x with
  | Some a => if truthy a then a else y
  | None => y
  end.

(** ** The [json] module: [json.dumps(v, indent=n)] *)

(** [json.dumps(v, indent=n)] as the [json] module of the interpreter
    computes it: the text of [v], or the exception the encoder ends with
    ([TypeError] on a value of a class it has no encoding for, [ValueError]
    on an integer with more digits than the conversion to text allows,
    [RecursionError] on a value nested deeper than the interpreter's stack
    allows).  What a method that calls [json.dumps] does is stated for every
    such function. *)
Class JsonModule : Type := json_dumps : pyval → nat → outcome string.

(** The encoder of the standard [json] module, for the runs of the example
    scripts.  It gives what [json.dumps] gives on a value that the
    interpreter's stack is deep enough for (some 990 nested lists and
    dictionaries with the default recursion limit); the text of a finite
    float, [float.__repr__], is a parameter of it. *)
Module Json.

Definition dquote : ascii := "034"%char.
Definition backslash : ascii := "092"%char.

Definition hex_digit (n : nat) : ascii :=
  if (n <? 10)%nat then ascii_of_nat (48 + n) else ascii_of_nat (87 + n).

(** The escape [\u00xy] of a character code below 256. *)
Definition escape_u (n : nat) : string :=
  String backslash ("u00" +:+ String (hex_digit (n / 16)) (String (hex_digit (n mod 16)) "")).

(** One character of a string literal, with [ensure_ascii] on: the quote,
    the backslash and the five short control escapes, [\u00xy] for every
    other character outside [' '..'~']. *)
Definition escape_char (c : ascii) : string :=
  let n := nat_of_ascii c in
  if (n =? 34)%nat then String backslash (String dquote "")
  else if (n =? 92)%nat then String backslash (String backslash "")
  else if (n =? 8)%nat then String backslash "b"
  else if (n =? 12)%nat then String backslash "f"
  else if (n =? 10)%nat then String backslash "n"
  else if (n =? 13)%nat then String backslash "r"
  else if (n =? 9)%nat then String backslash "t"
  else if (n <? 32)%nat || (126 <? n)%nat then escape_u n
  else String c "".

Fixpoint escape (s : string) : string :=
  match s with
  | EmptyString => EmptyString
  | String c s' => escape_char c +:+ escape s'
  end.

Definition quote (s : string) : string :=
  String dquote (escape s) +:+ String dquote "".

(** A line break followed by the indentation of nesting depth [level]. *)
Definition newline_indent (indent level : nat) : string :=
  String "010"%char (Str.repeat " " (indent * level)).

Definition bracket (opening closing : string) (indent level : nat)
    (items : list string) : string :=
  opening +:+ newline_indent indent (S level)
    +:+ Str.join ("," +:+ newline_indent indent (S level)) items
    +:+ newline_indent indent level +:+ closing.

(** The text of an integer: its decimal digits, unless there are more than
    4300 of them, the default limit of the conversion. *)
Definition int_text (n : Z) : outcome string :=
  if (4300 <? String.length (pretty (Z.abs n)))%nat
  then Raise (ValueError
    "Exceeds the limit (4300 digits) for integer string conversion; use sys.set_int_max_str_digits() to increase the limit")
  else Return (pretty n).

(** The text of a float: [NaN], [Infinity] and [-Infinity] for the values
    that are no numbers of JSON, [float_repr] for the finite ones. *)
Definition float_text (float_repr : float → string) (x : float) : string :=
  if PrimFloat.is_nan x then "NaN"
  else if PrimFloat.eqb x PrimFloat.infinity then "Infinity"
  else if PrimFloat.eqb x PrimFloat.neg_infinity then "-Infinity"
  else float_repr x.

(** The encoder at nesting depth [level].  A value of a class without an
    encoding ends the call with [TypeError]. *)
Fixpoint encode (float_repr : float → string) (indent level : nat) (v : pyval)
    : outcome string :=
  match v with
  | PNone => Return "null"
  | PBool true => Return "true"
  | PBool false => Return "false"
  | PInt n => int_text n
  | PFloat x => Return (float_text float_repr x)
  | PStr s => Return (quote s)
  | PList [] => Return "[]"
  | PList xs =>
      items ← for_each (encode float_repr indent (S level)) xs;
      Return (bracket "[" "]" indent level items)
  | PDict [] => Return "{}"
  | PDict kvs =>
      items ← for_each
                (λ kv, s ← encode float_repr indent (S level) kv.2;
                       Return (quote kv.1 +:+ ": " +:+ s)) kvs;
      Return (bracket "{" "}" indent level items)
  | PObject cls =>
      Raise (TypeError ("Object of type " +:+ cls +:+ " is not JSON serializable"))
  end.

(** [json.dumps(v, indent=indent)] *)
Definition dumps (float_repr : float → string) (v : pyval) (indent : nat)
    : outcome string :=
  encode float_repr indent 0 v.

End Json.

(** An optional dictionary argument as a value: [None] or the dictionary. *)
Definition of_optional_dict (d : option pydict) : pyval :=
  match d with
  | None => PNone
  | Some kvs => PDict kvs
  end.

(** ** Method calls *)

(** What a method call can read and change: the receiver [self] and the
    lines written to standard output, oldest first.  Every [print] call
    adds one entry. *)
Record world (S : Type) : Type := World {
  self : S;
  stdout : list string
}.
Arguments World {S} self stdout.
Arguments self {S} w.
Arguments stdout {S} w.

(** A method of a class with instances of type [S] that returns an [A]. *)
Definition Py (S A : Type) : Type := world S → outcome A * world S.

#[global] Instance Py_ret {S} : MRet (Py S) :=
  λ A a w, (Return a, w).

#[global] Instance Py_bind {S} : MBind (Py S) :=
  λ A B f m w,
    match m w with
    | (Return a, w') => f a w'
    | (Raise e, w') => (Raise e, w')
    end.

(** Reading [self]. *)
Definition get_self {S} : Py S S :=
  λ w, (Return (self w), w).

(** [print(line)] *)
Definition print {S} (line : string) : Py S unit :=
  λ w, (Return tt, World (self w) (stdout w ++ [line])).

(** A call into a library function that returns or raises. *)
Definition call {S A} (r : outcome A) : Py S A :=
  λ w, (r, w).

(** Calling method [m] on the object [obj] with nothing printed so far. *)
Definition run {S A} (m : Py S A) (obj : S) : outcome A * world S :=
  m (World obj []).

(** The value a call returns or the exception it raises. *)
Definition result {S A} (m : Py S A) (obj : S) : outcome A :=
  (run m obj).1.

(** The receiver after the call. *)
Definition self_after {S A} (m : Py S A) (obj : S) : S :=
  self (run m obj).2.

(** The lines the call printed. *)
Definition printed {S A} (m : Py S A) (obj : S) : list string :=
  stdout (run m obj).2.

(** A call that only reads: whatever the world it starts in, the receiver
    is afterwards what it was before. *)
Definition preserves_self {S A} (m : Py S A) : Prop :=
  ∀ w, self (m w).2 = self w.

(** ** [class RetryConfig] *)

Module RetryConfig.

Record t : Type := {
  max_retries : Z;
  backoff_factor : float
}.

(** [RetryConfig.__init__(self, max_retries=3, backoff_factor=2.0)] *)
Definition init (max_retries : option Z) (backoff_factor : option float) : t :=
  {| max_retries := default 3 max_retries;
     backoff_factor := default 2%float backoff_factor |}.

End RetryConfig.

(** An instance of a class that defines neither [__bool__] nor [__len__]
    is true. *)
#[global] Instance truthy_RetryConfig : Truthy RetryConfig.t := λ _, true.

(** ** [class HttpClient] *)

Module HttpClient.

Record t : Type := {
  base_url : string;
  timeout : Z;
  headers : gmap string string;
  retry_config : RetryConfig.t
}.

(** [HttpClient.__init__(self, base_url, timeout=30, headers=None,
    retry_config=None)] *)
Definition init (base_url : string) (timeout : option Z)
    (headers : option (gmap string string))
    (retry_config : option RetryConfig.t) : t :=
  {| base_url := Str.rstrip "/" base_url;
     timeout := default 30 timeout;
     headers := py_or_else headers ∅;
     retry_config := py_or_else retry_config (RetryConfig.init None None) |}.

(** The local [url] of the four request methods:
    [f"{self.base_url}{endpoint}"]. *)
Definition request_url (client : t) (endpoint : string) : string :=
  base_url client +:+ endpoint.

(** [HttpClient.get(self, endpoint, params=None)] *)
Definition get (endpoint : string) (params : option pydict) : Py t pydict :=
  client ← get_self;
  let url := request_url client endpoint in
  print ("GET " +:+ url);;
  mret [("status_code", PInt 200);
        ("data", PDict [("message", PStr "GET request successful");
                        ("endpoint", PStr endpoint)])].

(** [HttpClient.post(self, endpoint, json_data=None)] *)
Definition post {json : JsonModule} (endpoint : string) (json_data : option pydict)
    : Py t pydict :=
  client ← get_self;
  let url := request_url client endpoint in
  print ("POST " +:+ url);;
  dumped ← call (json_dumps (of_optional_dict json_data) 2);
  print ("Data: " +:+ dumped);;
  mret [("status_code", PInt 201);
        ("data", PDict [("message", PStr "POST request successful");
                        ("created", PBool true)])].

(** [HttpClient.put(self, endpoint, json_data=None)] *)
Definition put (endpoint : string) (json_data : option pydict) : Py t pydict :=
  client ← get_self;
  let url := request_url client endpoint in
  print ("PUT " +:+ url);;
  mret [("status_code", PInt 200);
        ("data", PDict [("message", PStr "PUT request successful");
                        ("updated", PBool true)])].

(** [HttpClient.delete(self, endpoint)] *)
Definition delete (endpoint : string) : Py t pydict :=
  client ← get_self;
  let url := request_url client endpoint in
  print ("DELETE " +:+ url);;
  mret [("status_code", PInt 204);
        ("data", PDict [("message", PStr "DELETE request successful")])].

End HttpClient.

(** ** [class LLMClient] *)

Module LLMClient.

Record t : Type := {
  provider : string;
  api_key : option string
}.

(** The name looked up in the environment:
    [f"{provider.upper()}_API_KEY"]; [None] when the upper-case form of the
    provider has a character with a code above 255. *)
Definition api_key_variable (provider : string) : option string :=
  upper_name ← Str.upper provider; Some (upper_name +:+ "_API_KEY").

(** [os.getenv(name)] in the environment [environ]. *)
Definition getenv (environ : gmap string string) (name : string) : option string :=
  environ !! name.

(** [os.getenv(f"{provider.upper()}_API_KEY")] in the environment
    [environ].  The names of [environ] are strings of the model, so a name
    with a character above code 255 is none of them and the lookup gives
    [None]. *)
Definition getenv_api_key (environ : gmap string string) (provider : string)
    : option string :=
  name ← api_key_variable provider; getenv environ name.

(** [LLMClient.__init__(self, provider, api_key=None)] in the environment
    [environ]. *)
Definition init (environ : gmap string string) (provider : string)
    (api_key : option string) : outcome t :=
  let client :=
    {| provider := provider;
       api_key := py_or api_key (getenv_api_key environ provider) |} in
  if negb (truthy (LLMClient.api_key client)) then
    Raise (ValueError ("API key required for " +:+ provider))
  else
    Return client.

(** [LLMClient.complete(self, prompt, max_tokens=100)] *)
Definition complete (prompt : string) (max_tokens : option Z) : Py t pydict :=
  client ← get_self;
  let max_tokens := default 100 max_tokens in
  mret [("text", PStr ("[Response to: " +:+ Str.take 50 prompt +:+ "...]"));
        ("tokens_used", PInt max_tokens);
        ("model", PStr (provider client +:+ "-model"))].

End LLMClient.

(** ** The back-off delay of [test_backoff_calculation] *)

(** [x ** n] for a [float] [x] and a non-negative [int] [n], by repeated
    binary64 multiplication.  Python computes the power with the [pow] of
    the C library, which rounds once where this function rounds at every
    step, and raises [OverflowError] where this function gives infinity.
    The two agree where every partial product is exact and finite
    ([float_pow_exact] below), as for the factor 1.0 at every [n] and for
    the factor 2.0 up to [n = 1023].  Only there is the function used for
    what the code computes. *)
Fixpoint float_pow (x : float) (n : nat) : float :=
  match n with
  | O => 1%float
  | S n' => (x * float_pow x n')%float
  end.

(** [delay = base_delay * (backoff_factor ** attempt)] *)
Definition backoff_delay (base_delay backoff_factor : float) (attempt : nat) : float :=
  (base_delay * float_pow backoff_factor attempt)%float.

(** The number [m * 2^e]. *)
Definition dyadic (m e : Z) : QArith_base.Q :=
  if (0 <=? e)%Z then QArith_base.inject_Z (m * 2 ^ e)
  else QArith_base.Qmake m (2 ^ Z.to_pos (- e))%positive.

(** The number a float stands for; none for the infinities and NaN. *)
Definition float_to_Q (x : float) : option QArith_base.Q :=
  match Prim2SF x with
  | S754_zero _ => Some (dyadic 0 0)
  | S754_finite sign m e => Some (dyadic (if sign then Z.neg m else Z.pos m) e)
  | S754_infinity _ | S754_nan => None
  end.

(** [x * y] is computed without rounding: the product of the floats stands
    for the product of the numbers. *)
Definition exact_product (x y : float) : bool :=
  match float_to_Q x, float_to_Q y, float_to_Q (x * y) with
  | Some a, Some b, Some c => QArith_base.Qeq_bool (QArith_base.Qmult a b) c
  | _, _, _ => false
  end.

(** No product of [float_pow x n] is rounded. *)
Fixpoint float_pow_exact (x : float) (n : nat) : bool :=
  match n with
  | O => true
  | S n' => float_pow_exact x n' && exact_product x (float_pow x n')
  end.


(** ** The data of the example scripts *)

Definition nl : string := String "010"%char "".

(** The [json] module in the runs of the example scripts: the standard
    encoder.  No payload of the scripts holds a float, and no text of one is
    given. *)
Definition example_json : JsonModule := Json.dumps (λ _, EmptyString).

(** [new_user] of the HTTP example script. *)
Definition example_user : pydict :=
  [("name", PStr "John Doe"); ("email", PStr "john@example.com")].

(** The first client of the HTTP example script. *)
Definition example_client : HttpClient.t :=
  HttpClient.init "https://api.example.com" (Some 30)
    (Some {[ "Content-Type" := "application/json" ]}) None.

(** The environment the LLM example script sets up before [main]. *)
Definition example_environ : gmap string string :=
  {[ "OPENAI_API_KEY" := "sk-example-key-not-real";
     "ANTHROPIC_API_KEY" := "sk-ant-REDACTED" ]}.

(** Provider names with letters outside ASCII: [é] (233), whose upper-case
    form is [É] (201), and [straße], whose upper-case form is [STRASSE]. *)
Definition e_acute : string := String "233"%char EmptyString.
Definition E_acute : string := String "201"%char EmptyString.
Definition strasse : string := "stra" +:+ String "223"%char "e".

(** The y with diaeresis (255), whose upper-case form has the code 376. *)
Definition y_diaeresis : string := String "255"%char EmptyString.

(** ** Vocabulary of the specification *)

(** A source of the API key (the explicit argument, the lookup in the
    environment) yields the key [k] when it gives the non-empty string [k].
    [None] and the empty string are no key. *)
Definition yields_key (source : option string) (k : string) : Prop :=
  source = Some k ∧ k ≠ "".

Definition yields_no_key (source : option string) : Prop :=
  ∀ k, ¬ yields_key source k.

(** ** The [__main__] block of the LLM example script *)

(** The two assignments to [os.environ] made before [main] is called, on
    top of the environment the script was started in. *)
Definition setup_environ (environ : gmap string string) : gmap string string :=
  <["ANTHROPIC_API_KEY" := "sk-ant-REDACTED"]>
    (<["OPENAI_API_KEY" := "sk-example-key-not-real"]> environ).

(** ** The token count of [TestTokenCounter] *)

(** [c.isspace()]: the characters [str.split()] separates words at.  Below
    256 these are the codes 9 to 13, 28 to 32, 133 and 160. *)
Definition is_space (c : ascii) : bool :=
  let n := nat_of_ascii c in
  ((9 <=? n)%nat && (n <=? 13)%nat) || ((28 <=? n)%nat && (n <=? 32)%nat)
  || (n =? 133)%nat || (n =? 160)%nat.

(** [text.split()] with the word read so far in [word]: a word ends at a
    whitespace character or at the end of the text, and an empty word is
    dropped. *)
Fixpoint split_from (word : string) (text : string) : list string :=
  match text with
  | EmptyString =>
      match word with EmptyString => [] | _ => [word] end
  | String c text' =>
      if is_space c then
        match word with
        | EmptyString => split_from EmptyString text'
        | _ => word :: split_from EmptyString text'
        end
      else split_from (word +:+ String c EmptyString) text'
  end.

(** [text.split()] *)
Definition split (text : string) : list string :=
  split_from EmptyString text.

(** [token_count = len(text.split())] *)
Definition count_tokens (text : string) : nat :=
  length (split text).

(** Every character of [s] is whitespace ([s.isspace()], or [s] is empty). *)
Fixpoint all_space (s : string) : bool :=
  match s with
  | EmptyString => true
  | String c s' => is_space c && all_space s'
  end.

(** No character of [s] is whitespace. *)
Fixpoint no_space (s : string) : bool :=
  match s with
  | EmptyString => true
  | String c s' => negb (is_space c) && no_space s'
  end.

(** A word: not empty, no whitespace in it. *)
Definition is_word (s : string) : bool :=
  negb (String.eqb s EmptyString) && no_space s.

(** * Runs of the example scripts *)

Example upper_openai : Str.upper "openai" = Some "OPENAI".
Proof. reflexivity. Qed.

Example upper_test_provider : Str.upper "test_provider" = Some "TEST_PROVIDER".
Proof. reflexivity. Qed.

Example upper_e_acute : Str.upper e_acute = Some E_acute.
Proof. reflexivity. Qed.

Example upper_strasse : Str.upper strasse = Some "STRASSE".
Proof. reflexivity. Qed.

Example upper_y_diaeresis : Str.upper y_diaeresis = None.
Proof. reflexivity. Qed.

Example upper_caseless : Str.upper "GPT-4 / v2_x" = Some "GPT-4 / V2_X".
Proof. reflexivity. Qed.

Example rstrip_two : Str.rstrip "/" "https://api.example.com//" = "https://api.example.com".
Proof. reflexivity. Qed.

Example rstrip_inner : Str.rstrip "/" "a/b/" = "a/b".
Proof. reflexivity. Qed.

Example dumps_user :
  @json_dumps example_json (PDict example_user) 2 =
  Return ("{" +:+ nl +:+ "  " +:+ Json.quote "name" +:+ ": " +:+ Json.quote "John Doe" +:+ ","
          +:+ nl +:+ "  " +:+ Json.quote "email" +:+ ": " +:+ Json.quote "john@example.com"
          +:+ nl +:+ "}").
Proof. reflexivity. Qed.

Example dumps_none : @json_dumps example_json PNone 2 = Return "null".
Proof. reflexivity. Qed.

Example dumps_nested :
  @json_dumps example_json (PDict [("a", PList [PInt 1; PInt (-2)]); ("b", PDict [])]) 2 =
  Return ("{" +:+ nl +:+ "  " +:+ Json.quote "a" +:+ ": [" +:+ nl +:+ "    1," +:+ nl
          +:+ "    -2" +:+ nl +:+ "  ]," +:+ nl +:+ "  " +:+ Json.quote "b" +:+ ": {}"
          +:+ nl +:+ "}").
Proof. reflexivity. Qed.

Example dumps_set :
  @json_dumps example_json (PDict [("tags", PObject "set")]) 2 =
  Raise (TypeError "Object of type set is not JSON serializable").
Proof. reflexivity. Qed.

Example example_client_fields :
  example_client =
  {| HttpClient.base_url := "https://api.example.com";
     HttpClient.timeout := 30;
     HttpClient.headers := {[ "Content-Type" := "application/json" ]};
     HttpClient.retry_config :=
       {| RetryConfig.max_retries := 3; RetryConfig.backoff_factor := 2 |} |}.
Proof. reflexivity. Qed.

Example example_get_users :
  run (HttpClient.get "/users" None) example_client =
  (Return [("status_code", PInt 200);
           ("data", PDict [("message", PStr "GET request successful");
                           ("endpoint", PStr "/users")])],
   World example_client ["GET https://api.example.com/users"]).
Proof. reflexivity. Qed.

Example example_post_users_printed :
  printed (HttpClient.post (json := example_json) "/users" (Some example_user))
    example_client =
  ["POST https://api.example.com/users";
   "Data: {" +:+ nl +:+ "  " +:+ Json.quote "name" +:+ ": " +:+ Json.quote "John Doe" +:+ ","
     +:+ nl +:+ "  " +:+ Json.quote "email" +:+ ": " +:+ Json.quote "john@example.com"
     +:+ nl +:+ "}"].
Proof. reflexivity. Qed.

Example example_delete_user :
  run (HttpClient.delete "/users/123") example_client =
  (Return [("status_code", PInt 204);
           ("data", PDict [("message", PStr "DELETE request successful")])],
   World example_client ["DELETE https://api.example.com/users/123"]).
Proof. reflexivity. Qed.

Example example_openai_client :
  LLMClient.init example_environ "openai" None =
  Return {| LLMClient.provider := "openai";
            LLMClient.api_key := Some "sk-example-key-not-real" |}.
Proof. reflexivity. Qed.

Example example_test_provider :
  LLMClient.init example_environ "test_provider" None =
  Raise (ValueError "API key required for test_provider").
Proof. reflexivity. Qed.

Example example_e_acute_client :
  LLMClient.init {[ E_acute +:+ "_API_KEY" := "k" ]} e_acute None =
  Return {| LLMClient.provider := e_acute; LLMClient.api_key := Some "k" |}.
Proof. reflexivity. Qed.

Example example_e_acute_lower_case_variable :
  LLMClient.init {[ e_acute +:+ "_API_KEY" := "k" ]} e_acute None =
  Raise (ValueError ("API key required for " +:+ e_acute)).
Proof. reflexivity. Qed.

Example example_y_diaeresis_client :
  LLMClient.init example_environ y_diaeresis None =
  Raise (ValueError ("API key required for " +:+ y_diaeresis)).
Proof. reflexivity. Qed.

Example example_complete :
  result (LLMClient.complete "What is Python?" None)
    {| LLMClient.provider := "anthropic"; LLMClient.api_key := Some "k" |} =
  Return [("text", PStr "[Response to: What is Python?...]");
          ("tokens_used", PInt 100);
          ("model", PStr "anthropic-model")].
Proof. reflexivity. Qed.

Example example_complete_long :
  result (LLMClient.complete "Explain what machine learning is in simple terms." (Some 150))
    {| LLMClient.provider := "openai"; LLMClient.api_key := Some "k" |} =
  Return [("text", PStr "[Response to: Explain what machine learning is in simple terms....]");
          ("tokens_used", PInt 150);
          ("model", PStr "openai-model")].
Proof. reflexivity. Qed.

Example example_complete_truncated :
  dict_get "text" <$>
    result (LLMClient.complete
              "Summarise the history of the Roman Empire from Augustus to Romulus Augustulus"
              (Some 7))
      {| LLMClient.provider := "openai"; LLMClient.api_key := Some "k" |} =
  Return (Some (PStr "[Response to: Summarise the history of the Roman Empire from Aug...]")).
Proof. reflexivity. Qed.

(** The delays of the first five attempts for a base delay of one second
    and the default factor. *)
Example backoff_schedule :
  map (backoff_delay 1 2) [0; 1; 2; 3; 4]%nat = [1; 2; 4; 8; 16]%float.
Proof. reflexivity. Qed.

(** Where the power is exact and where it is not: 3.0 to the fifth power
    is 243.0 without rounding; 1.1 (the float next to it) squared is
    rounded, and so is 2.0 to the power 1024, which is no finite float. *)
Example power_exact : float_pow_exact 3 5 = true ∧ float_pow 3 5 = 243%float.
Proof. by split. Qed.

Example power_rounded : exact_product 0x1.199999999999ap+0 0x1.199999999999ap+0 = false.
Proof. reflexivity. Qed.

Example power_overflow : float_pow_exact 2 1023 = true ∧ float_pow_exact 2 1024 = false.
Proof. by vm_compute. Qed.

(** The factor 1.5 of [test_custom_config]. *)
Example backoff_custom_factor : backoff_delay 1 1.5 2 = 2.25%float.
Proof. reflexivity. Qed.

(** * Properties of the string operations *)

Section StringFacts.

Lemma app_cons (a : ascii) (s t : string) : String a s +:+ t = String a (s +:+ t).
Proof. reflexivity. Qed.

Lemma app_empty_r (s : string) : s +:+ "" = s.
Proof. induction s as [|a s IH]; [reflexivity|]. by rewrite app_cons, IH. Qed.

Lemma rstrip_cons (c a : ascii) (s : string) :
  Str.rstrip c (String a s) =
  match Str.rstrip c s with
  | EmptyString => if Ascii.eqb a c then EmptyString else String a EmptyString
  | r => String a r
  end.
Proof. reflexivity. Qed.

(** A string of [c]'s is stripped to nothing. *)
Lemma rstrip_repeat (c : ascii) (n : nat) : Str.rstrip c (Str.repeat c n) = "".
Proof.
  induction n as [|n IH]; [reflexivity|].
  cbn [Str.repeat]. rewrite rstrip_cons, IH. by rewrite Ascii.eqb_refl.
Qed.

(** Trailing [c]'s do not change what is left after stripping. *)
Lemma rstrip_app_repeat (c : ascii) (s : string) (n : nat) :
  Str.rstrip c (s +:+ Str.repeat c n) = Str.rstrip c s.
Proof.
  induction s as [|a s IH].
  - apply rstrip_repeat.
  - by rewrite app_cons, !rstrip_cons, IH.
Qed.

(** Stripping removes a run of [c]'s from the end and nothing else. *)
Lemma rstrip_decompose (c : ascii) (s : string) :
  ∃ n, s = Str.rstrip c s +:+ Str.repeat c n.
Proof.
  induction s as [|a s [n IH]]; [by exists 0%nat|].
  rewrite rstrip_cons. destruct (Str.rstrip c s) as [|b r] eqn:Hr.
  - destruct (Ascii.eqb_spec a c) as [->|Hne].
    + exists (S n). by rewrite IH at 1.
    + exists n. by rewrite IH at 1.
  - exists n. by rewrite IH at 1.
Qed.

(** What is left does not end in [c]. *)
Lemma rstrip_ends_with (c : ascii) (s : string) :
  Str.ends_with c (Str.rstrip c s) = false.
Proof.
  induction s as [|a s IH]; [reflexivity|].
  rewrite rstrip_cons. destruct (Str.rstrip c s) as [|b r] eqn:Hr.
  - destruct (Ascii.eqb_spec a c) as [->|Hne]; [reflexivity|].
    cbn. by apply Ascii.eqb_neq.
  - exact IH.
Qed.

(** [s[:n]] is a prefix of [s]. *)
Lemma take_prefix (n : nat) (s : string) : ∃ rest, s = Str.take n s +:+ rest.
Proof.
  revert s. induction n as [|n IH]; intros s; [by exists s|].
  destruct s as [|a s]; [by exists ""|].
  destruct (IH s) as [rest Hrest]. exists rest.
  cbn [Str.take]. by rewrite app_cons, <- Hrest.
Qed.

(** [len(s[:n])] is [min(n, len(s))]. *)
Lemma take_length (n : nat) (s : string) :
  String.length (Str.take n s) = Nat.min n (String.length s).
Proof.
  revert s. induction n as [|n IH]; intros [|a s]; cbn; try reflexivity.
  by rewrite IH.
Qed.

End StringFacts.

(** * Properties of method calls *)

Section PyFacts.
Context {S : Type}.

Lemma preserves_self_ret {A} (a : A) : preserves_self (mret a : Py S A).
Proof. by intros w. Qed.

Lemma preserves_self_get_self : preserves_self (get_self : Py S S).
Proof. by intros w. Qed.

Lemma preserves_self_print (line : string) : preserves_self (print line : Py S unit).
Proof. by intros w. Qed.

Lemma preserves_self_call {A} (r : outcome A) : preserves_self (call r : Py S A).
Proof. by intros w. Qed.

Lemma preserves_self_bind {A B} (m : Py S A) (f : A → Py S B) :
  preserves_self m → (∀ a, preserves_self (f a)) → preserves_self (m ≫= f).
Proof.
  intros Hm Hf w. unfold mbind, Py_bind.
  specialize (Hm w). destruct (m w) as [[a|e] w']; cbn in *.
  - by rewrite Hf.
  - done.
Qed.

(** A call that leaves [self] alone in every world does so from the
    empty output too. *)
Lemma preserves_self_after {A} (m : Py S A) (obj : S) :
  preserves_self m → self_after m obj = obj.
Proof. intros Hm. apply (Hm (World obj [])). Qed.

End PyFacts.

Create HintDb py_frame discriminated.
#[local] Hint Resolve preserves_self_ret preserves_self_get_self
  preserves_self_print preserves_self_call : py_frame.

(** Splits a method body at its binds until the primitive calls remain. *)
Ltac frame_step :=
  first [ apply preserves_self_bind; [|intros ?] | solve [auto with py_frame] ].
Ltac solve_frame := repeat frame_step.

Section HttpClientFrame.
Context {json : JsonModule}.

Lemma get_preserves_self endpoint params :
  preserves_self (HttpClient.get endpoint params).
Proof. unfold HttpClient.get. solve_frame. Qed.

Lemma post_preserves_self endpoint json_data :
  preserves_self (HttpClient.post endpoint json_data).
Proof. unfold HttpClient.post. solve_frame. Qed.

Lemma put_preserves_self endpoint json_data :
  preserves_self (HttpClient.put endpoint json_data).
Proof. unfold HttpClient.put. solve_frame. Qed.

Lemma delete_preserves_self endpoint :
  preserves_self (HttpClient.delete endpoint).
Proof. unfold HttpClient.delete. solve_frame. Qed.

End HttpClientFrame.

(** * The request methods of [HttpClient] *)

Section HttpClientFacts.
Context {json : JsonModule}.

Lemma result_get client endpoint params :
  result (HttpClient.get endpoint params) client =
  Return [("status_code", PInt 200);
          ("data", PDict [("message", PStr "GET request successful");
                          ("endpoint", PStr endpoint)])].
Proof. reflexivity. Qed.

Lemma result_put client endpoint json_data :
  result (HttpClient.put endpoint json_data) client =
  Return [("status_code", PInt 200);
          ("data", PDict [("message", PStr "PUT request successful");
                          ("updated", PBool true)])].
Proof. reflexivity. Qed.

Lemma result_delete client endpoint :
  result (HttpClient.delete endpoint) client =
  Return [("status_code", PInt 204);
          ("data", PDict [("message", PStr "DELETE request successful")])].
Proof. reflexivity. Qed.

(** [post] ends the way [json.dumps] ends on its payload. *)
Lemma run_post client endpoint json_data :
  run (HttpClient.post endpoint json_data) client =
  match json_dumps (of_optional_dict json_data) 2 with
  | Return dumped =>
      (Return [("status_code", PInt 201);
               ("data", PDict [("message", PStr "POST request successful");
                               ("created", PBool true)])],
       World client ["POST " +:+ HttpClient.request_url client endpoint;
                     "Data: " +:+ dumped])
  | Raise e =>
      (Raise e, World client ["POST " +:+ HttpClient.request_url client endpoint])
  end.
Proof.
  unfold run, HttpClient.post, mbind, Py_bind, call, print, get_self; cbn.
  by destruct (json_dumps _ _).
Qed.

Lemma result_post_returns client endpoint json_data dumped :
  json_dumps (of_optional_dict json_data) 2 = Return dumped →
  result (HttpClient.post endpoint json_data) client =
  Return [("status_code", PInt 201);
          ("data", PDict [("message", PStr "POST request successful");
                          ("created", PBool true)])].
Proof. intros H. unfold result. by rewrite run_post, H. Qed.

Lemma result_post_raises client endpoint json_data e :
  json_dumps (of_optional_dict json_data) 2 = Raise e →
  result (HttpClient.post endpoint json_data) client = Raise e.
Proof. intros H. unfold result. by rewrite run_post, H. Qed.

(** The request methods read nothing of the client but [base_url]. *)
Lemma post_reads_base_url c1 c2 endpoint json_data :
  HttpClient.base_url c1 = HttpClient.base_url c2 →
  result (HttpClient.post endpoint json_data) c1 =
    result (HttpClient.post endpoint json_data) c2
  ∧ printed (HttpClient.post endpoint json_data) c1 =
    printed (HttpClient.post endpoint json_data) c2.
Proof.
  intros Hurl. unfold result, printed. rewrite !run_post.
  unfold HttpClient.request_url. rewrite Hurl.
  by destruct (json_dumps _ _).
Qed.

End HttpClientFacts.

(** * Construction of an [LLMClient] *)

Section LLMClientFacts.

Lemma yields_no_key_truthy (source : option string) :
  yields_no_key source ↔ truthy source = false.
Proof.
  unfold yields_no_key, yields_key. split.
  - intros Hno. destruct source as [[|a k]|]; try reflexivity.
    by destruct (Hno (String a k)).
  - intros Hfalse k [-> Hne]. by destruct k.
Qed.

(** The lookup of the constructor reads the environment at the upper-case
    form of the provider followed by [_API_KEY]. *)
Lemma getenv_api_key_lookup (environ : gmap string string) (provider : string) :
  LLMClient.getenv_api_key environ provider =
  Str.upper provider ≫= λ upper_name, environ !! (upper_name +:+ "_API_KEY").
Proof.
  unfold LLMClient.getenv_api_key, LLMClient.api_key_variable, LLMClient.getenv.
  by destruct (Str.upper provider).
Qed.

(** The constructor raises exactly when the resolved key is false. *)
Lemma init_cases environ provider api_key :
  let resolved :=
    py_or api_key
      (Str.upper provider ≫= λ upper_name, environ !! (upper_name +:+ "_API_KEY")) in
  LLMClient.init environ provider api_key =
  if truthy resolved
  then Return {| LLMClient.provider := provider; LLMClient.api_key := resolved |}
  else Raise (ValueError ("API key required for " +:+ provider)).
Proof.
  cbn zeta. unfold LLMClient.init. cbn [LLMClient.api_key].
  rewrite getenv_api_key_lookup. by destruct (truthy (py_or _ _)).
Qed.

End LLMClientFacts.

(** C1. For every provider name, environment and explicit [api_key]
    argument, [LLMClient.__init__] raises [ValueError] if and only if
    neither the explicit argument nor the lookup of the upper-cased provider
    name followed by [_API_KEY] yields a key; when the explicit argument
    yields a key the client is constructed with that key, and when only the
    environment yields one the client is constructed with the environment's
    key. *)
Theorem LLMClient_init_resolves_key
    (environ : gmap string string) (provider : string) (api_key : option string) :
  let fallback :=
    Str.upper provider ≫= λ upper_name, environ !! (upper_name +:+ "_API_KEY") in
  ((∃ msg, LLMClient.init environ provider api_key = Raise (ValueError msg))
     ↔ yields_no_key api_key ∧ yields_no_key fallback)
  ∧ (∀ k, yields_key api_key k →
       LLMClient.init environ provider api_key =
       Return {| LLMClient.provider := provider; LLMClient.api_key := Some k |})
  ∧ (∀ k, yields_no_key api_key → yields_key fallback k →
       LLMClient.init environ provider api_key =
       Return {| LLMClient.provider := provider; LLMClient.api_key := Some k |}).
Proof.
  cbn zeta. rewrite init_cases. cbn zeta.
  set (fallback := Str.upper provider ≫= _).
  rewrite !yields_no_key_truthy. unfold py_or.
  split; [|split].
  - destruct (truthy api_key) eqn:Hk.
    + rewrite Hk. split; [by intros [msg ?]|by intros [? _]].
    + destruct (truthy fallback) eqn:Hf.
      * split; [by intros [msg ?]|by intros [_ ?]].
      * split; [done|]. intros _. eauto.
  - intros k [-> Hne]. by destruct k.
  - intros k Hno [Hf Hne]. apply yields_no_key_truthy in Hno.
    rewrite Hno, Hf. by destruct k.
Qed.

(** The constructor in the environment of the example script: [openai]
    has no explicit key and resolves the one of [OPENAI_API_KEY]. *)
Lemma LLMClient_init_resolves_key_witness :
  Str.upper "openai" = Some "OPENAI"
  ∧ example_environ !! "OPENAI_API_KEY" = Some "sk-example-key-not-real"
  ∧ LLMClient.init example_environ "openai" None =
    Return {| LLMClient.provider := "openai";
              LLMClient.api_key := Some "sk-example-key-not-real" |}.
Proof.
  assert (Hno : yields_no_key None) by (by intros k [? _]).
  assert (Hk : yields_key
                 (Str.upper "openai" ≫= λ upper_name,
                    example_environ !! (upper_name +:+ "_API_KEY"))
                 "sk-example-key-not-real") by (split; [reflexivity|discriminate]).
  split; [reflexivity|]. split; [reflexivity|].
  exact (proj2 (proj2 (LLMClient_init_resolves_key example_environ "openai" None))
           "sk-example-key-not-real" Hno Hk).
Defined.

(** C9. An empty string as the explicit [api_key] argument is handled as
    [None] is: the constructor takes the key the environment holds under
    the upper-cased provider name followed by [_API_KEY] when that is a
    non-empty string, and raises [ValueError] when the lookup gives [None]
    or the empty string. *)
Theorem LLMClient_init_empty_api_key (environ : gmap string string) (provider : string) :
  let fallback :=
    Str.upper provider ≫= λ upper_name, environ !! (upper_name +:+ "_API_KEY") in
  LLMClient.init environ provider (Some "") = LLMClient.init environ provider None
  ∧ (∀ k, yields_key fallback k →
       LLMClient.init environ provider (Some "") =
       Return {| LLMClient.provider := provider; LLMClient.api_key := Some k |})
  ∧ (fallback = None ∨ fallback = Some "" →
       LLMClient.init environ provider (Some "") =
       Raise (ValueError ("API key required for " +:+ provider))).
Proof.
  cbn zeta. rewrite !init_cases. cbn zeta. unfold py_or. cbn [truthy truthy_option truthy_string].
  split; [reflexivity|]. split.
  - intros k [-> Hne]. by destruct k.
  - by intros [-> | ->].
Qed.

(** In the environment of the example script the empty key falls through
    to [OPENAI_API_KEY] for [openai], and raises for [test_provider], which
    has no variable. *)
Lemma LLMClient_init_empty_api_key_witness :
  (example_environ !! "OPENAI_API_KEY" = Some "sk-example-key-not-real"
   ∧ LLMClient.init example_environ "openai" (Some "") =
     Return {| LLMClient.provider := "openai";
               LLMClient.api_key := Some "sk-example-key-not-real" |})
  ∧ (example_environ !! "TEST_PROVIDER_API_KEY" = None
     ∧ LLMClient.init example_environ "test_provider" (Some "") =
       Raise (ValueError "API key required for test_provider")).
Proof.
  split; (split; [reflexivity|]).
  - refine (proj1 (proj2 (LLMClient_init_empty_api_key example_environ "openai"))
              "sk-example-key-not-real" _).
    split; [reflexivity|discriminate].
  - exact (proj2 (proj2 (LLMClient_init_empty_api_key example_environ "test_provider"))
             (or_introl eq_refl)).
Defined.

(** C4. For every client, prompt and token budget, [complete] returns a
    dictionary whose [text] is the opening "[Response to: ", the first 50
    characters of the prompt (all of it when it is shorter) and the closing
    "...]", whose [tokens_used] is the requested [max_tokens] (100 when the
    argument is left out) and whose [model] is the provider name followed
    by "-model". *)
Theorem complete_response (client : LLMClient.t) (prompt : string) (max_tokens : Z) :
  (∃ response,
     result (LLMClient.complete prompt (Some max_tokens)) client = Return response
     ∧ dict_get "text" response =
       Some (PStr ("[Response to: " +:+ Str.take 50 prompt +:+ "...]"))
     ∧ dict_get "tokens_used" response = Some (PInt max_tokens)
     ∧ dict_get "model" response = Some (PStr (LLMClient.provider client +:+ "-model")))
  ∧ (∃ response,
       result (LLMClient.complete prompt None) client = Return response
       ∧ dict_get "tokens_used" response = Some (PInt 100))
  ∧ (∃ rest, prompt = Str.take 50 prompt +:+ rest)
  ∧ String.length (Str.take 50 prompt) = Nat.min 50 (String.length prompt).
Proof.
  split; [|split; [|split]].
  - eexists. split; [reflexivity|]. by repeat split.
  - eexists. by split.
  - apply take_prefix.
  - apply take_length.
Qed.

(** * The request URL *)

(** C2. For every base URL and endpoint the request URL is the base
    without its trailing slashes followed by the endpoint, it is what each
    request method prints after its verb, and slashes appended to the base
    never change it.  For the base [https://api.example.com] followed by
    any number of slashes and the endpoint [/users] the URL is
    [https://api.example.com/users]: no doubled slash arises where base and
    endpoint meet, and the URL has none but the one of the scheme
    [https://] that the base starts with. *)
Theorem request_url_concatenation :
  (∀ (base endpoint : string) timeout headers retry_config,
     let client := HttpClient.init base timeout headers retry_config in
     HttpClient.request_url client endpoint = Str.rstrip "/" base +:+ endpoint
     ∧ (∃ n, base = Str.rstrip "/" base +:+ Str.repeat "/" n)
     ∧ Str.ends_with "/" (Str.rstrip "/" base) = false
     ∧ printed (HttpClient.get endpoint None) client =
       ["GET " +:+ Str.rstrip "/" base +:+ endpoint]
     ∧ (∀ json : JsonModule,
          ∃ rest, printed (HttpClient.post endpoint None) client =
                  ("POST " +:+ Str.rstrip "/" base +:+ endpoint) :: rest)
     ∧ printed (HttpClient.put endpoint None) client =
       ["PUT " +:+ Str.rstrip "/" base +:+ endpoint]
     ∧ printed (HttpClient.delete endpoint) client =
       ["DELETE " +:+ Str.rstrip "/" base +:+ endpoint]
     ∧ (∀ n timeout' headers' retry_config',
          HttpClient.request_url
            (HttpClient.init (base +:+ Str.repeat "/" n) timeout' headers' retry_config')
            endpoint
          = HttpClient.request_url client endpoint))
  ∧ (∀ (n : nat) timeout headers retry_config,
       let url :=
         HttpClient.request_url
           (HttpClient.init ("https://api.example.com" +:+ Str.repeat "/" n)
              timeout headers retry_config) "/users" in
       url = "https://api.example.com/users"
       ∧ Str.occurrences "//" url = Str.occurrences "//" "https://"
       ∧ Str.contains "//" (Str.drop (String.length "https://") url) = false)
  ∧ Str.occurrences "//" "https://api.example.com/users" = [6%nat].
Proof.
  split; [|split].
  - intros base endpoint timeout headers retry_config. cbn zeta.
    split; [reflexivity|]. split; [apply rstrip_decompose|].
    split; [apply rstrip_ends_with|]. split; [reflexivity|].
    split.
    { intros json. unfold printed. rewrite run_post.
      destruct (json_dumps _ _); cbn; eauto. }
    split; [reflexivity|]. split; [reflexivity|].
    intros n timeout' headers' retry_config'.
    unfold HttpClient.request_url, HttpClient.init. cbn [HttpClient.base_url].
    by rewrite rstrip_app_repeat.
  - intros n timeout headers retry_config. cbn zeta.
    assert (Hurl : HttpClient.request_url
              (HttpClient.init ("https://api.example.com" +:+ Str.repeat "/" n)
                 timeout headers retry_config) "/users"
            = "https://api.example.com/users").
    { unfold HttpClient.request_url, HttpClient.init. cbn [HttpClient.base_url].
      by rewrite rstrip_app_repeat. }
    rewrite Hurl. by repeat split.
  - reflexivity.
Qed.

(** * The responses of the request methods *)

(** C3, as stated, fails: the [data] that [get] returns changes with the
    endpoint, and [post] raises [TypeError] on a payload with a [set] in
    it, which [json.dumps] does not encode. *)
Lemma responses_not_fixed :
  (dict_get "data" <$> result (HttpClient.get "/users" None) example_client)
    ≠ (dict_get "data" <$> result (HttpClient.get "/health" None) example_client)
  ∧ result (HttpClient.post (json := example_json) "/users"
              (Some [("tags", PObject "set")])) example_client
    = Raise (TypeError "Object of type set is not JSON serializable").
Proof. split; [discriminate|reflexivity]. Qed.

(** C3, amended. For every client and endpoint, [get], [put] and [delete]
    return the status codes 200, 200 and 204 on every argument; [post]
    passes its payload to [json.dumps] and returns 201 whenever that call
    returns, whatever the payload holds, and raises what the call raises
    otherwise; [post], [put] and [delete] return a fixed [data], and [get]
    returns its fixed message together with the endpoint it was called
    with. *)
Theorem request_responses {json : JsonModule} (client : HttpClient.t) (endpoint : string) :
  (∀ params,
     result (HttpClient.get endpoint params) client =
     Return [("status_code", PInt 200);
             ("data", PDict [("message", PStr "GET request successful");
                             ("endpoint", PStr endpoint)])])
  ∧ (∀ json_data dumped,
       json_dumps (of_optional_dict json_data) 2 = Return dumped →
       result (HttpClient.post endpoint json_data) client =
       Return [("status_code", PInt 201);
               ("data", PDict [("message", PStr "POST request successful");
                               ("created", PBool true)])])
  ∧ (∀ json_data e,
       json_dumps (of_optional_dict json_data) 2 = Raise e →
       result (HttpClient.post endpoint json_data) client = Raise e)
  ∧ (∀ json_data,
       result (HttpClient.put endpoint json_data) client =
       Return [("status_code", PInt 200);
               ("data", PDict [("message", PStr "PUT request successful");
                               ("updated", PBool true)])])
  ∧ result (HttpClient.delete endpoint) client =
    Return [("status_code", PInt 204);
            ("data", PDict [("message", PStr "DELETE request successful")])].
Proof.
  split; [|split; [|split; [|split]]].
  - intros params. apply result_get.
  - intros json_data dumped Hdumped. by apply result_post_returns with dumped.
  - intros json_data e Hraise. by apply result_post_raises.
  - intros json_data. apply result_put.
  - apply result_delete.
Qed.

(** The [POST /users] request of the example script: [json.dumps] returns
    the text of [new_user], and [post] returns 201. *)
Lemma request_responses_witness :
  (∃ dumped, @json_dumps example_json (of_optional_dict (Some example_user)) 2
             = Return dumped)
  ∧ result (HttpClient.post (json := example_json) "/users" (Some example_user))
      example_client =
    Return [("status_code", PInt 201);
            ("data", PDict [("message", PStr "POST request successful");
                            ("created", PBool true)])].
Proof.
  split; [eexists; reflexivity|].
  exact (proj1 (proj2 (request_responses (json := example_json) example_client "/users"))
           (Some example_user) _ eq_refl).
Defined.

(** C8. Two clients constructed from the same arguments except for the
    timeout return the same result, and print the same lines, from each
    of [get], [post], [put] and [delete] on the same arguments. *)
Theorem responses_independent_of_timeout {json : JsonModule}
    (base : string) (timeout1 timeout2 : option Z)
    (headers : option (gmap string string)) (retry_config : option RetryConfig.t)
    (endpoint : string) (payload : option pydict) :
  let client1 := HttpClient.init base timeout1 headers retry_config in
  let client2 := HttpClient.init base timeout2 headers retry_config in
  (result (HttpClient.get endpoint payload) client1 =
     result (HttpClient.get endpoint payload) client2
   ∧ printed (HttpClient.get endpoint payload) client1 =
     printed (HttpClient.get endpoint payload) client2)
  ∧ (result (HttpClient.post endpoint payload) client1 =
       result (HttpClient.post endpoint payload) client2
     ∧ printed (HttpClient.post endpoint payload) client1 =
       printed (HttpClient.post endpoint payload) client2)
  ∧ (result (HttpClient.put endpoint payload) client1 =
       result (HttpClient.put endpoint payload) client2
     ∧ printed (HttpClient.put endpoint payload) client1 =
       printed (HttpClient.put endpoint payload) client2)
  ∧ (result (HttpClient.delete endpoint) client1 =
       result (HttpClient.delete endpoint) client2
     ∧ printed (HttpClient.delete endpoint) client1 =
       printed (HttpClient.delete endpoint) client2).
Proof.
  cbn zeta. split; [by split|]. split; [|by split].
  by apply post_reads_base_url.
Qed.

(** C10. Each of [get], [post], [put] and [delete] leaves the client as
    it was, whatever had been printed before the call and also when [post]
    raises: [base_url], [timeout], [headers] and [retry_config] are after
    the call what they were before it. *)
Theorem requests_leave_client_unchanged {json : JsonModule}
    (client : HttpClient.t) (endpoint : string) (payload : option pydict) :
  (preserves_self (HttpClient.get endpoint payload)
   ∧ preserves_self (HttpClient.post endpoint payload)
   ∧ preserves_self (HttpClient.put endpoint payload)
   ∧ preserves_self (HttpClient.delete endpoint))
  ∧ self_after (HttpClient.get endpoint payload) client = client
  ∧ self_after (HttpClient.post endpoint payload) client = client
  ∧ self_after (HttpClient.put endpoint payload) client = client
  ∧ self_after (HttpClient.delete endpoint) client = client.
Proof.
  pose proof (get_preserves_self endpoint payload) as Hget.
  pose proof (post_preserves_self endpoint payload) as Hpost.
  pose proof (put_preserves_self endpoint payload) as Hput.
  pose proof (delete_preserves_self endpoint) as Hdelete.
  repeat split; try assumption; by apply preserves_self_after.
Qed.

(** * Retry configuration *)

(** C6. [RetryConfig()] has [max_retries] 3 and [backoff_factor] 2.0, and
    a client constructed without a [retry_config] holds a [RetryConfig]
    with these values. *)
Theorem default_retry_config :
  RetryConfig.max_retries (RetryConfig.init None None) = 3
  ∧ RetryConfig.backoff_factor (RetryConfig.init None None) = 2%float
  ∧ ∀ (base : string) timeout headers,
      HttpClient.retry_config (HttpClient.init base timeout headers None) =
        RetryConfig.init None None
      ∧ RetryConfig.max_retries
          (HttpClient.retry_config (HttpClient.init base timeout headers None)) = 3
      ∧ RetryConfig.backoff_factor
          (HttpClient.retry_config (HttpClient.init base timeout headers None)) = 2%float.
Proof. by repeat split. Qed.

(** C7. No constraint on [backoff_factor] is enforced: [RetryConfig]
    stores every value it is given unchanged, among them 0.5, which is
    below 1.0, and [HttpClient] stores every [RetryConfig] it is given
    unchanged. *)
Theorem backoff_factor_not_validated :
  (∀ (max_retries : option Z) (backoff_factor : float),
     RetryConfig.backoff_factor (RetryConfig.init max_retries (Some backoff_factor))
       = backoff_factor)
  ∧ (PrimFloat.ltb 0.5 1 = true
     ∧ RetryConfig.backoff_factor (RetryConfig.init None (Some 0.5%float)) = 0.5%float)
  ∧ (∀ (base : string) timeout headers (config : RetryConfig.t),
       HttpClient.retry_config (HttpClient.init base timeout headers (Some config))
         = config).
Proof. by repeat split. Qed.

(** * The back-off delay *)

Section BackoffFacts.



End BackoffFacts.



(** * Further properties of [HttpClient] *)

Section StringFactsMore.

Lemma app_assoc_string (s t u : string) : (s +:+ t) +:+ u = s +:+ (t +:+ u).
Proof. induction s as [|a s IH]; [reflexivity|]. by rewrite !app_cons, IH. Qed.

Lemma length_app_string (s t : string) :
  String.length (s +:+ t) = (String.length s + String.length t)%nat.
Proof. induction s as [|a s IH]; [reflexivity|]. rewrite app_cons. cbn. by rewrite IH. Qed.

(** Nothing is stripped from a string that does not end in [c]. *)
Lemma rstrip_id (c : ascii) (s : string) :
  Str.ends_with c s = false → Str.rstrip c s = s.
Proof.
  induction s as [|a s IH]; [reflexivity|]. intros Hend.
  rewrite rstrip_cons. destruct s as [|b s].
  - cbn in *. by rewrite Hend.
  - rewrite IH by exact Hend. reflexivity.
Qed.

Lemma rstrip_idempotent (c : ascii) (s : string) :
  Str.rstrip c (Str.rstrip c s) = Str.rstrip c s.
Proof. apply rstrip_id, rstrip_ends_with. Qed.

End StringFactsMore.

(** X1. A base URL that does not end in a slash is stored as it is, and
    constructing a client from the [base_url] of a client gives the same
    [base_url] again. *)
Theorem base_url_normal_form (base : string) timeout headers retry_config :
  (Str.ends_with "/" base = false →
     HttpClient.base_url (HttpClient.init base timeout headers retry_config) = base)
  ∧ (∀ timeout' headers' retry_config',
       HttpClient.base_url
         (HttpClient.init
            (HttpClient.base_url (HttpClient.init base timeout headers retry_config))
            timeout' headers' retry_config')
       = HttpClient.base_url (HttpClient.init base timeout headers retry_config)).
Proof.
  split.
  - intros Hend. by apply rstrip_id.
  - intros. apply rstrip_idempotent.
Qed.

Lemma base_url_normal_form_witness :
  Str.ends_with "/" "https://api.example.com" = false
  ∧ HttpClient.base_url (HttpClient.init "https://api.example.com" None None None)
    = "https://api.example.com".
Proof.
  split; [reflexivity|].
  exact (proj1 (base_url_normal_form "https://api.example.com" None None None) eq_refl).
Defined.

(** X2. A base URL made of slashes only, the empty one among them, is
    stored as the empty string, and every request URL is then the endpoint
    alone. *)
Theorem base_url_only_slashes (n : nat) (endpoint : string) timeout headers retry_config :
  let client := HttpClient.init (Str.repeat "/" n) timeout headers retry_config in
  HttpClient.base_url client = ""
  ∧ HttpClient.request_url client endpoint = endpoint
  ∧ printed (HttpClient.get endpoint None) client = ["GET " +:+ endpoint].
Proof.
  cbn zeta.
  assert (Hbase : HttpClient.base_url
            (HttpClient.init (Str.repeat "/" n) timeout headers retry_config) = "")
    by apply rstrip_repeat.
  split; [exact Hbase|].
  assert (Hurl : HttpClient.request_url
            (HttpClient.init (Str.repeat "/" n) timeout headers retry_config) endpoint
          = endpoint)
    by (unfold HttpClient.request_url; by rewrite Hbase).
  split; [exact Hurl|].
  change (["GET " +:+ HttpClient.request_url
             (HttpClient.init (Str.repeat "/" n) timeout headers retry_config) endpoint]
          = ["GET " +:+ endpoint]).
  by rewrite Hurl.
Qed.

(** X3. The client holds the headers it is given, also when the dictionary
    is empty and Python's [or] replaces it by a new empty one; without
    headers it holds the empty dictionary. *)
Theorem headers_stored (base : string) timeout (given : gmap string string) retry_config :
  HttpClient.headers (HttpClient.init base timeout (Some given) retry_config) = given
  ∧ HttpClient.headers (HttpClient.init base timeout None retry_config) = ∅
  ∧ ∀ name value,
      HttpClient.headers
        (HttpClient.init base timeout (Some (<[name := value]> given)) retry_config)
        !! name = Some value.
Proof.
  assert (Hstored : ∀ h : gmap string string, py_or_else (Some h) ∅ = h).
  { intros h. unfold py_or_else, truthy, truthy_gmap.
    destruct (Nat.eqb_spec (size h) 0) as [Hz|Hnz]; cbn; [|reflexivity].
    symmetry. by apply map_size_empty_inv. }
  split; [apply Hstored|]. split; [reflexivity|].
  intros name value. cbn [HttpClient.init HttpClient.headers].
  rewrite Hstored. apply lookup_insert_eq.
Qed.

(** * What the request methods depend on *)

(** The second client of the HTTP example script's third example: bearer
    token, another timeout, five retries. *)
Lemma auth_client_base_url :
  HttpClient.base_url
    (HttpClient.init "https://api.example.com/" (Some 5)
       (Some {[ "Authorization" := "Bearer abc123token" ]})
       (Some (RetryConfig.init (Some 5) (Some 2%float))))
  = HttpClient.base_url example_client.
Proof. reflexivity. Qed.

(** X4. What a request returns and prints depends on the client through
    its [base_url] alone: two clients with the same [base_url] behave the
    same whatever their headers, timeout and retry configuration;
    moreover [get] ignores [params] and [put] ignores [json_data]. *)
Theorem requests_read_base_url_only {json : JsonModule}
    (client1 client2 : HttpClient.t) (endpoint : string) (p1 p2 : option pydict) :
  HttpClient.base_url client1 = HttpClient.base_url client2 →
  (result (HttpClient.get endpoint p1) client1 = result (HttpClient.get endpoint p2) client2
   ∧ printed (HttpClient.get endpoint p1) client1
     = printed (HttpClient.get endpoint p2) client2)
  ∧ (result (HttpClient.post endpoint p1) client1
     = result (HttpClient.post endpoint p1) client2
     ∧ printed (HttpClient.post endpoint p1) client1
       = printed (HttpClient.post endpoint p1) client2)
  ∧ (result (HttpClient.put endpoint p1) client1 = result (HttpClient.put endpoint p2) client2
     ∧ printed (HttpClient.put endpoint p1) client1
       = printed (HttpClient.put endpoint p2) client2)
  ∧ (result (HttpClient.delete endpoint) client1 = result (HttpClient.delete endpoint) client2
     ∧ printed (HttpClient.delete endpoint) client1
       = printed (HttpClient.delete endpoint) client2).
Proof.
  intros Hurl.
  assert (Hreq : HttpClient.request_url client1 endpoint
                 = HttpClient.request_url client2 endpoint)
    by (unfold HttpClient.request_url; by rewrite Hurl).
  split; [|split; [|split]].
  - split; [reflexivity|].
    change (["GET " +:+ HttpClient.request_url client1 endpoint]
            = ["GET " +:+ HttpClient.request_url client2 endpoint]).
    by rewrite Hreq.
  - by apply post_reads_base_url.
  - split; [reflexivity|].
    change (["PUT " +:+ HttpClient.request_url client1 endpoint]
            = ["PUT " +:+ HttpClient.request_url client2 endpoint]).
    by rewrite Hreq.
  - split; [reflexivity|].
    change (["DELETE " +:+ HttpClient.request_url client1 endpoint]
            = ["DELETE " +:+ HttpClient.request_url client2 endpoint]).
    by rewrite Hreq.
Qed.

(** The client with a bearer token prints and returns what the first
    client of the script does. *)
Lemma requests_read_base_url_only_witness :
  printed (HttpClient.get "/protected/resource" None)
    (HttpClient.init "https://api.example.com/" (Some 5)
       (Some {[ "Authorization" := "Bearer abc123token" ]})
       (Some (RetryConfig.init (Some 5) (Some 2%float))))
  = printed (HttpClient.get "/protected/resource" (Some [("page", PInt 2)])) example_client.
Proof.
  exact (proj2 (proj1 (requests_read_base_url_only (json := example_json)
                         _ example_client "/protected/resource"
                         None (Some [("page", PInt 2)]) auth_client_base_url))).
Defined.

(** X5. [post] does what the [json.dumps] call on its payload does: when
    the call returns, [post] returns its 201 response after printing the
    [POST] line and the [Data] line with the text; when the call raises,
    [post] raises the same exception after printing the [POST] line alone.
    So [post] returns exactly when [json.dumps] does. *)
Theorem post_follows_json_dumps {json : JsonModule}
    (client : HttpClient.t) (endpoint : string) (json_data : option pydict) :
  (∀ dumped, json_dumps (of_optional_dict json_data) 2 = Return dumped →
     result (HttpClient.post endpoint json_data) client =
       Return [("status_code", PInt 201);
               ("data", PDict [("message", PStr "POST request successful");
                               ("created", PBool true)])]
     ∧ printed (HttpClient.post endpoint json_data) client =
       ["POST " +:+ HttpClient.request_url client endpoint; "Data: " +:+ dumped])
  ∧ (∀ e, json_dumps (of_optional_dict json_data) 2 = Raise e →
       result (HttpClient.post endpoint json_data) client = Raise e
       ∧ printed (HttpClient.post endpoint json_data) client =
         ["POST " +:+ HttpClient.request_url client endpoint])
  ∧ ((∃ response, result (HttpClient.post endpoint json_data) client = Return response)
     ↔ ∃ dumped, json_dumps (of_optional_dict json_data) 2 = Return dumped).
Proof.
  unfold result, printed. rewrite run_post.
  destruct (json_dumps (of_optional_dict json_data) 2) as [dumped|e] eqn:Hdumps.
  - split; [by intros ? [= <-]|]. split; [discriminate|]. split; eauto.
  - split; [discriminate|]. split; [by intros ? [= <-]|].
    split; intros [? ?]; discriminate.
Qed.

(** With the standard encoder: a payload with a [set] makes [post] raise
    after the [POST] line, and the payload of the script is printed. *)
Lemma post_follows_json_dumps_witness :
  (@json_dumps example_json (of_optional_dict (Some [("tags", PObject "set")])) 2
     = Raise (TypeError "Object of type set is not JSON serializable")
   ∧ printed (HttpClient.post (json := example_json) "/users"
                (Some [("tags", PObject "set")])) example_client
     = ["POST https://api.example.com/users"])
  ∧ (∃ dumped,
       @json_dumps example_json (of_optional_dict (Some example_user)) 2 = Return dumped
       ∧ printed (HttpClient.post (json := example_json) "/users" (Some example_user))
           example_client
         = ["POST https://api.example.com/users"; "Data: " +:+ dumped]).
Proof.
  split.
  - split; [reflexivity|].
    exact (proj2 (proj1 (proj2 (post_follows_json_dumps (json := example_json)
                                  example_client "/users"
                                  (Some [("tags", PObject "set")]))) _ eq_refl)).
  - eexists. split; [reflexivity|].
    exact (proj2 (proj1 (post_follows_json_dumps (json := example_json)
                           example_client "/users" (Some example_user)) _ eq_refl)).
Defined.

(** X6. The four requests of the example script in a row, for any client,
    endpoints and payloads: when [json.dumps] returns on the payload of
    [post] they print their five lines in order, the call returns the
    response of [delete] and the client is as before; when it raises, the
    run ends at [post] with that exception, and [put] and [delete] print
    nothing. *)
Theorem request_sequence {json : JsonModule}
    (client : HttpClient.t) (e1 e2 e3 e4 : string) (payload payload' : option pydict) :
  let requests : Py HttpClient.t pydict :=
    HttpClient.get e1 None;; HttpClient.post e2 payload;;
    HttpClient.put e3 payload';; HttpClient.delete e4 in
  match json_dumps (of_optional_dict payload) 2 with
  | Return dumped =>
      run requests client =
      (Return [("status_code", PInt 204);
               ("data", PDict [("message", PStr "DELETE request successful")])],
       World client ["GET " +:+ HttpClient.request_url client e1;
                     "POST " +:+ HttpClient.request_url client e2;
                     "Data: " +:+ dumped;
                     "PUT " +:+ HttpClient.request_url client e3;
                     "DELETE " +:+ HttpClient.request_url client e4])
  | Raise e =>
      run requests client =
      (Raise e, World client ["GET " +:+ HttpClient.request_url client e1;
                              "POST " +:+ HttpClient.request_url client e2])
  end.
Proof.
  cbn zeta.
  unfold run, HttpClient.get, HttpClient.post, HttpClient.put, HttpClient.delete,
    mbind, Py_bind, mret, Py_ret, call, print, get_self; cbn.
  by destruct (json_dumps (of_optional_dict payload) 2).
Qed.

(** * Further properties of [LLMClient] *)

(** X7. Every client the constructor returns carries the provider it was
    given and a non-empty key: the explicit one, or, when the explicit
    argument yields none, the one the environment holds under the
    upper-cased provider name followed by [_API_KEY]. *)
Theorem constructed_client_has_key
    (environ : gmap string string) (provider : string) (api_key : option string)
    (client : LLMClient.t) :
  LLMClient.init environ provider api_key = Return client →
  LLMClient.provider client = provider
  ∧ ∃ key, LLMClient.api_key client = Some key ∧ key ≠ ""
      ∧ (yields_key api_key key
         ∨ (yields_no_key api_key
            ∧ ∃ upper_name, Str.upper provider = Some upper_name
                ∧ environ !! (upper_name +:+ "_API_KEY") = Some key)).
Proof.
  rewrite init_cases. cbn zeta. unfold py_or.
  destruct (truthy api_key) eqn:Hk.
  - rewrite Hk. intros [= <-]. split; [reflexivity|].
    destruct api_key as [[|a k]|]; try discriminate.
    exists (String a k). repeat split; try discriminate. left. by split.
  - destruct (Str.upper provider) as [upper_name|] eqn:Hupper; [|discriminate].
    cbn [mbind option_bind].
    destruct (environ !! (upper_name +:+ "_API_KEY")) as [[|a k]|] eqn:Hf; try discriminate.
    intros [= <-]. split; [reflexivity|]. cbn [LLMClient.api_key].
    exists (String a k). repeat split; try discriminate.
    right. split; [by apply yields_no_key_truthy|]. by exists upper_name.
Qed.

(** The client for the provider [é], constructed without an explicit key
    where [É_API_KEY] is set, holds the key of that variable. *)
Lemma constructed_client_has_key_witness :
  LLMClient.init {[ E_acute +:+ "_API_KEY" := "k" ]} e_acute None =
    Return {| LLMClient.provider := e_acute; LLMClient.api_key := Some "k" |}
  ∧ ∃ key, Some "k" = Some key ∧ key ≠ ""
      ∧ (yields_key None key
         ∨ (yields_no_key None
            ∧ ∃ upper_name, Str.upper e_acute = Some upper_name
                ∧ ({[ E_acute +:+ "_API_KEY" := "k" ]} : gmap string string)
                    !! (upper_name +:+ "_API_KEY") = Some key)).
Proof.
  split; [reflexivity|].
  exact (proj2 (constructed_client_has_key {[ E_acute +:+ "_API_KEY" := "k" ]} e_acute None
                  {| LLMClient.provider := e_acute; LLMClient.api_key := Some "k" |}
                  eq_refl)).
Defined.

(** X8. The constructor reads one variable of the environment only, the
    one named by the upper-cased provider followed by [_API_KEY]: two
    environments that agree on it give the same outcome, so setting or
    deleting any other variable changes nothing; and with a non-empty
    explicit key the environment is not consulted at all. *)
Theorem init_reads_one_variable
    (environ : gmap string string) (provider : string) (api_key : option string) :
  (∀ environ' : gmap string string,
     (∀ upper_name, Str.upper provider = Some upper_name →
        environ' !! (upper_name +:+ "_API_KEY") = environ !! (upper_name +:+ "_API_KEY")) →
     LLMClient.init environ' provider api_key = LLMClient.init environ provider api_key)
  ∧ (∀ name value,
       (∀ upper_name, Str.upper provider = Some upper_name →
          name ≠ upper_name +:+ "_API_KEY") →
       LLMClient.init (<[name := value]> environ) provider api_key
         = LLMClient.init environ provider api_key
       ∧ LLMClient.init (base.delete name environ) provider api_key
         = LLMClient.init environ provider api_key)
  ∧ (∀ key (environ' : gmap string string), key ≠ "" →
       LLMClient.init environ' provider (Some key)
         = LLMClient.init environ provider (Some key)).
Proof.
  assert (Hagree : ∀ environ' : gmap string string,
            (∀ upper_name, Str.upper provider = Some upper_name →
               environ' !! (upper_name +:+ "_API_KEY")
                 = environ !! (upper_name +:+ "_API_KEY")) →
            LLMClient.init environ' provider api_key
              = LLMClient.init environ provider api_key).
  { intros environ' Hsame. rewrite !init_cases. cbn zeta.
    destruct (Str.upper provider) as [upper_name|]; [|reflexivity].
    cbn [mbind option_bind]. by rewrite (Hsame upper_name eq_refl). }
  split; [exact Hagree|]. split.
  - intros name value Hne. split; apply Hagree; intros upper_name Hupper.
    + apply lookup_insert_ne. exact (Hne upper_name Hupper).
    + apply lookup_delete_ne. exact (Hne upper_name Hupper).
  - intros key environ' Hne. rewrite !init_cases. cbn zeta. unfold py_or.
    by destruct key.
Qed.

(** Setting the lower-case [é_API_KEY] changes nothing for the provider
    [é], whose variable is [É_API_KEY]. *)
Lemma init_reads_one_variable_witness :
  LLMClient.init (<[e_acute +:+ "_API_KEY" := "other"]> {[ E_acute +:+ "_API_KEY" := "k" ]})
    e_acute None
  = LLMClient.init {[ E_acute +:+ "_API_KEY" := "k" ]} e_acute None.
Proof.
  refine (proj1 (proj1 (proj2 (init_reads_one_variable
                                 {[ E_acute +:+ "_API_KEY" := "k" ]} e_acute None))
                   (e_acute +:+ "_API_KEY") "other" _)).
  intros upper_name [= <-]. discriminate.
Defined.

(** X9. Setting the variable named by the upper-cased provider followed
    by [_API_KEY] to a non-empty value makes the construction without an
    explicit key succeed with that value, in every environment; deleting
    the variable or setting it to the empty string makes it raise; a
    non-empty explicit key is used even when the variable is set; and a
    provider whose upper-case form has a character above code 255 gets no
    key from any environment of the model. *)
Theorem init_after_setting_variable
    (environ : gmap string string) (provider : string) :
  (∀ upper_name, Str.upper provider = Some upper_name →
     let name := upper_name +:+ "_API_KEY" in
     (∀ value, value ≠ "" →
        LLMClient.init (<[name := value]> environ) provider None =
        Return {| LLMClient.provider := provider; LLMClient.api_key := Some value |})
     ∧ LLMClient.init (base.delete name environ) provider None
       = Raise (ValueError ("API key required for " +:+ provider))
     ∧ LLMClient.init (<[name := ""]> environ) provider None
       = Raise (ValueError ("API key required for " +:+ provider))
     ∧ (∀ value key, key ≠ "" →
          LLMClient.init (<[name := value]> environ) provider (Some key) =
          Return {| LLMClient.provider := provider; LLMClient.api_key := Some key |}))
  ∧ (Str.upper provider = None →
       LLMClient.init environ provider None
       = Raise (ValueError ("API key required for " +:+ provider))).
Proof.
  split.
  - intros upper_name Hupper. cbn zeta.
    split; [|split; [|split]].
    + intros value Hne. rewrite init_cases, Hupper. cbn zeta. cbn [mbind option_bind].
      unfold py_or. rewrite lookup_insert_eq. by destruct value.
    + rewrite init_cases, Hupper. cbn zeta. cbn [mbind option_bind].
      unfold py_or. by rewrite lookup_delete_eq.
    + rewrite init_cases, Hupper. cbn zeta. cbn [mbind option_bind].
      unfold py_or. by rewrite lookup_insert_eq.
    + intros value key Hne. rewrite init_cases. cbn zeta. unfold py_or. by destruct key.
  - intros Hupper. rewrite init_cases, Hupper. reflexivity.
Qed.

(** With [É_API_KEY] set, the client for the provider [é] is constructed. *)
Lemma init_after_setting_variable_witness :
  Str.upper e_acute = Some E_acute
  ∧ LLMClient.init (<[E_acute +:+ "_API_KEY" := "secret"]> example_environ) e_acute None =
    Return {| LLMClient.provider := e_acute; LLMClient.api_key := Some "secret" |}.
Proof.
  split; [reflexivity|].
  refine (proj1 (proj1 (init_after_setting_variable example_environ e_acute)
                   E_acute eq_refl) "secret" _).
  discriminate.
Defined.

Section UpperFacts.

Lemma upper_app (s t : string) :
  Str.upper (s +:+ t) = u ← Str.upper s; v ← Str.upper t; Some (u +:+ v).
Proof.
  induction s as [|c s IH].
  - change ("" +:+ t) with t. cbn. by destruct (Str.upper t).
  - rewrite app_cons. cbn [Str.upper]. rewrite IH.
    destruct (Str.upper_char c) as [uc|]; [|reflexivity].
    destruct (Str.upper s) as [us|]; [|reflexivity].
    destruct (Str.upper t) as [ut|]; [|reflexivity].
    cbn. by rewrite app_assoc_string.
Qed.

(** The upper-case form of a character is its own upper-case form. *)
Lemma upper_char_fixed (c : ascii) (u : string) :
  Str.upper_char c = Some u → Str.upper u = Some u.
Proof.
  destruct c as [[] [] [] [] [] [] [] []]; cbn; intros Hu;
    first [discriminate Hu | injection Hu as <-; reflexivity].
Qed.

Lemma upper_fixed (s u : string) : Str.upper s = Some u → Str.upper u = Some u.
Proof.
  revert u. induction s as [|c s IH]; intros u; cbn [Str.upper].
  - by intros [= <-].
  - destruct (Str.upper_char c) as [uc|] eqn:Hc; [|discriminate].
    destruct (Str.upper s) as [us|] eqn:Hs; [|discriminate].
    cbn. intros [= <-]. rewrite upper_app.
    by rewrite (upper_char_fixed c uc Hc), (IH us eq_refl).
Qed.

End UpperFacts.

(** X10. The provider name is matched against the environment without
    regard to the case of its letters: two names with the same upper-case
    form resolve the same key and fail together, each with its own name in
    the client and in the message; the upper-case form of a name is such a
    name, being its own upper-case form. *)
Theorem provider_case_insensitive
    (environ : gmap string string) (provider1 provider2 : string)
    (api_key : option string) :
  (Str.upper provider1 = Str.upper provider2 →
     (∀ client, LLMClient.init environ provider1 api_key = Return client →
        LLMClient.init environ provider2 api_key =
        Return {| LLMClient.provider := provider2;
                  LLMClient.api_key := LLMClient.api_key client |})
     ∧ (∀ e, LLMClient.init environ provider1 api_key = Raise e →
          LLMClient.init environ provider2 api_key =
          Raise (ValueError ("API key required for " +:+ provider2))))
  ∧ (∀ upper_name, Str.upper provider1 = Some upper_name →
       Str.upper upper_name = Some upper_name).
Proof.
  split; [|intros upper_name; apply upper_fixed].
  intros Hupper. rewrite !init_cases. cbn zeta. rewrite Hupper.
  destruct (truthy (py_or api_key _)); split; intros ? [= <-]; reflexivity || discriminate.
Qed.

(** The provider [straße] resolves the key of [STRASSE_API_KEY], as the
    provider [STRASSE] does. *)
Lemma provider_case_insensitive_witness :
  Str.upper "STRASSE" = Str.upper strasse
  ∧ LLMClient.init {[ "STRASSE_API_KEY" := "k" ]} "STRASSE" None =
    Return {| LLMClient.provider := "STRASSE"; LLMClient.api_key := Some "k" |}
  ∧ LLMClient.init {[ "STRASSE_API_KEY" := "k" ]} strasse None =
    Return {| LLMClient.provider := strasse; LLMClient.api_key := Some "k" |}.
Proof.
  split; [reflexivity|]. split; [reflexivity|].
  exact (proj1 (proj1 (provider_case_insensitive {[ "STRASSE_API_KEY" := "k" ]}
                         "STRASSE" strasse None) eq_refl)
           {| LLMClient.provider := "STRASSE"; LLMClient.api_key := Some "k" |} eq_refl).
Defined.

(** X11. After the assignments of the [__main__] block, whatever the
    environment the script was started in, the clients for [openai] and
    [anthropic] are constructed with the example keys, so the first two
    examples of [main] never reach their [except ValueError] branch; the
    construction for [test_provider] in the third example raises exactly
    when [TEST_PROVIDER_API_KEY] is unset or empty in the starting
    environment. *)
Theorem main_clients (environ : gmap string string) :
  LLMClient.init (setup_environ environ) "openai" None =
    Return {| LLMClient.provider := "openai";
              LLMClient.api_key := Some "sk-example-key-not-real" |}
  ∧ LLMClient.init (setup_environ environ) "anthropic" None =
    Return {| LLMClient.provider := "anthropic";
              LLMClient.api_key := Some "sk-ant-REDACTED" |}
  ∧ (LLMClient.init (setup_environ environ) "test_provider" None =
       Raise (ValueError "API key required for test_provider")
     ↔ yields_no_key (environ !! "TEST_PROVIDER_API_KEY"))
  ∧ (∀ key, yields_key (environ !! "TEST_PROVIDER_API_KEY") key →
       LLMClient.init (setup_environ environ) "test_provider" None =
       Return {| LLMClient.provider := "test_provider"; LLMClient.api_key := Some key |}).
Proof.
  rewrite !init_cases. cbn zeta. unfold py_or, setup_environ.
  change (Str.upper "openai") with (Some "OPENAI").
  change (Str.upper "anthropic") with (Some "ANTHROPIC").
  change (Str.upper "test_provider") with (Some "TEST_PROVIDER").
  cbn [mbind option_bind].
  change ("OPENAI" +:+ "_API_KEY") with "OPENAI_API_KEY".
  change ("ANTHROPIC" +:+ "_API_KEY") with "ANTHROPIC_API_KEY".
  change ("TEST_PROVIDER" +:+ "_API_KEY") with "TEST_PROVIDER_API_KEY".
  rewrite lookup_insert_eq.
  rewrite (lookup_insert_ne _ "ANTHROPIC_API_KEY" "OPENAI_API_KEY") by discriminate.
  rewrite lookup_insert_eq.
  rewrite (lookup_insert_ne _ "ANTHROPIC_API_KEY" "TEST_PROVIDER_API_KEY") by discriminate.
  rewrite (lookup_insert_ne _ "OPENAI_API_KEY" "TEST_PROVIDER_API_KEY") by discriminate.
  split; [reflexivity|]. split; [reflexivity|].
  rewrite yields_no_key_truthy. cbn [truthy truthy_option].
  split.
  - destruct (environ !! "TEST_PROVIDER_API_KEY") as [[|a k]|]; cbn; by split.
  - intros key [-> Hne]. by destruct key.
Qed.

(** Started with [TEST_PROVIDER_API_KEY] set, the third example raises
    nothing. *)
Lemma main_clients_witness :
  LLMClient.init (setup_environ {[ "TEST_PROVIDER_API_KEY" := "k" ]}) "test_provider" None =
  Return {| LLMClient.provider := "test_provider"; LLMClient.api_key := Some "k" |}.
Proof.
  refine (proj2 (proj2 (proj2 (main_clients {[ "TEST_PROVIDER_API_KEY" := "k" ]}))) "k" _).
  split; [reflexivity|discriminate].
Defined.

Lemma result_complete (client : LLMClient.t) (prompt : string) (max_tokens : option Z) :
  result (LLMClient.complete prompt max_tokens) client =
  Return [("text", PStr ("[Response to: " +:+ Str.take 50 prompt +:+ "...]"));
          ("tokens_used", PInt (default 100 max_tokens));
          ("model", PStr (LLMClient.provider client +:+ "-model"))].
Proof. reflexivity. Qed.

(** X12. The response of [complete] depends on the prompt through its
    first 50 characters only, and on the client through its provider only:
    prompts that agree on their first 50 characters get the same response
    from clients of the same provider, whatever their keys. *)
Theorem complete_reads_prefix_and_provider
    (client1 client2 : LLMClient.t) (prompt1 prompt2 : string) (max_tokens : option Z) :
  LLMClient.provider client1 = LLMClient.provider client2 →
  Str.take 50 prompt1 = Str.take 50 prompt2 →
  result (LLMClient.complete prompt1 max_tokens) client1
  = result (LLMClient.complete prompt2 max_tokens) client2.
Proof.
  intros Hprovider Hprefix. rewrite !result_complete.
  by rewrite Hprovider, Hprefix.
Qed.

Lemma complete_reads_prefix_and_provider_witness :
  result (LLMClient.complete
            "Summarise the history of the Roman Empire from Augustus to Romulus Augustulus"
            (Some 7))
    {| LLMClient.provider := "openai"; LLMClient.api_key := Some "k1" |}
  = result (LLMClient.complete
              "Summarise the history of the Roman Empire from August 1914"
              (Some 7))
      {| LLMClient.provider := "openai"; LLMClient.api_key := Some "k2" |}.
Proof.
  exact (complete_reads_prefix_and_provider
           {| LLMClient.provider := "openai"; LLMClient.api_key := Some "k1" |}
           {| LLMClient.provider := "openai"; LLMClient.api_key := Some "k2" |}
           "Summarise the history of the Roman Empire from Augustus to Romulus Augustulus"
           "Summarise the history of the Roman Empire from August 1914"
           (Some 7) eq_refl eq_refl).
Defined.

(** X13. [complete] raises on no input, the empty prompt and a zero or
    negative token budget among them; it prints nothing and leaves the
    client as it was; the text it returns is 18 characters longer than the
    part of the prompt it embeds, so never longer than 68 characters. *)
Theorem complete_total_and_bounded
    (client : LLMClient.t) (prompt : string) (max_tokens : option Z) :
  ∃ text,
    run (LLMClient.complete prompt max_tokens) client =
      (Return [("text", PStr text);
               ("tokens_used", PInt (default 100 max_tokens));
               ("model", PStr (LLMClient.provider client +:+ "-model"))],
       World client [])
    ∧ String.length text = (18 + Nat.min 50 (String.length prompt))%nat
    ∧ (String.length text ≤ 68)%nat
    ∧ (prompt = "" → text = "[Response to: ...]").
Proof.
  exists ("[Response to: " +:+ Str.take 50 prompt +:+ "...]").
  split; [reflexivity|].
  assert (Hlen : String.length ("[Response to: " +:+ Str.take 50 prompt +:+ "...]")
                 = (18 + Nat.min 50 (String.length prompt))%nat).
  { rewrite !length_app_string, take_length. cbn [String.length]. lia. }
  split; [exact Hlen|]. split; [rewrite Hlen; lia|].
  by intros ->.
Qed.

Lemma complete_total_and_bounded_witness :
  ∃ text,
    run (LLMClient.complete "" (Some (-5)))
      {| LLMClient.provider := "openai"; LLMClient.api_key := Some "k" |} =
      (Return [("text", PStr text);
               ("tokens_used", PInt (-5));
               ("model", PStr "openai-model")],
       World {| LLMClient.provider := "openai"; LLMClient.api_key := Some "k" |} [])
    ∧ text = "[Response to: ...]".
Proof.
  destruct (complete_total_and_bounded
              {| LLMClient.provider := "openai"; LLMClient.api_key := Some "k" |}
              "" (Some (-5))) as (text & Hrun & _ & _ & Hempty).
  exists text. split; [exact Hrun|exact (Hempty eq_refl)].
Defined.

(** * Further properties of the back-off delay *)


(** A check that holds on every number below a bound holds on each of
    them. *)
Lemma forallb_below (check : nat → bool) (bound n : nat) :
  forallb check (seq 0 bound) = true → (n < bound)%nat → check n = true.
Proof.
  intros Hall Hn. apply (proj1 (forallb_forall check (seq 0 bound)) Hall).
  apply in_seq. lia.
Qed.


(** X15. With a base delay of 1.0 and the default factor 2.0, the delay of
    every attempt up to 1023 is finite and equal to 2 to the power of the
    attempt, and it is twice the delay of the attempt before. *)
Theorem backoff_default_doubles (attempt : nat) :
  (attempt ≤ 1023)%nat →
  PrimFloat.is_finite (backoff_delay 1 2 attempt) = true
  ∧ PrimFloat.eqb (backoff_delay 1 2 attempt) (Z.ldexp 1 (Z.of_nat attempt)) = true
  ∧ (attempt ≠ 0%nat →
       PrimFloat.eqb (backoff_delay 1 2 attempt)
         (2 * backoff_delay 1 2 (Nat.pred attempt)) = true
       ∧ PrimFloat.ltb (backoff_delay 1 2 (Nat.pred attempt))
           (backoff_delay 1 2 attempt) = true).
Proof.
  intros Hle.
  pose (check := λ n : nat,
    PrimFloat.is_finite (backoff_delay 1 2 n)
    && PrimFloat.eqb (backoff_delay 1 2 n) (Z.ldexp 1 (Z.of_nat n))
    && (Nat.eqb n 0
        || (PrimFloat.eqb (backoff_delay 1 2 n) (2 * backoff_delay 1 2 (Nat.pred n))
            && PrimFloat.ltb (backoff_delay 1 2 (Nat.pred n)) (backoff_delay 1 2 n)))).
  assert (Hall : forallb check (seq 0 1024) = true) by (vm_compute; reflexivity).
  assert (Hcheck : check attempt = true) by (apply (forallb_below check 1024); [exact Hall|lia]).
  unfold check in Hcheck.
  apply andb_prop in Hcheck as [Hcheck Hstep]. apply andb_prop in Hcheck as [Hfin Hpow].
  split; [exact Hfin|]. split; [exact Hpow|].
  intros Hnz. apply orb_prop in Hstep as [Hzero|Hstep].
  - apply Nat.eqb_eq in Hzero. contradiction.
  - by apply andb_prop in Hstep.
Qed.

(** The delay before the tenth retry is 1024 seconds. *)
Lemma backoff_default_doubles_witness :
  (10 ≤ 1023)%nat ∧ PrimFloat.eqb (backoff_delay 1 2 10) 1024 = true.
Proof.
  assert (Hle : (10 ≤ 1023)%nat) by lia.
  split; [exact Hle|].
  exact (proj1 (proj2 (backoff_default_doubles 10 Hle))).
Defined.

(** * The token count *)

Section SplitFacts.

Lemma app_snoc_nonempty (w : string) (c : ascii) : w +:+ String c "" ≠ "".
Proof. by destruct w. Qed.

Lemma no_space_snoc (w : string) (c : ascii) :
  no_space (w +:+ String c "") = no_space w && negb (is_space c).
Proof.
  induction w as [|a w IH]; cbn [no_space].
  - change ("" +:+ String c "") with (String c ""). cbn [no_space]. by rewrite andb_true_r.
  - rewrite app_cons. cbn [no_space]. by rewrite IH, andb_assoc.
Qed.

Lemma is_word_nonempty (w : string) :
  w ≠ "" → no_space w = true → is_word w = true.
Proof.
  intros Hne Hns. unfold is_word. rewrite Hns, andb_true_r.
  apply negb_true_iff, String.eqb_neq, Hne.
Qed.

(** Every token is a word. *)
Lemma split_from_words (text word : string) :
  no_space word = true → Forall (λ t, is_word t = true) (split_from word text).
Proof.
  revert word. induction text as [|c text IH]; intros word Hword; cbn [split_from].
  - destruct word as [|a w]; [constructor|].
    constructor; [|constructor]. by apply is_word_nonempty.
  - destruct (is_space c) eqn:Hc.
    + destruct word as [|a w]; [by apply IH|].
      constructor; [by apply is_word_nonempty|by apply IH].
    + apply IH. by rewrite no_space_snoc, Hword, Hc.
Qed.

(** No token comes out exactly when no word is pending and the rest is
    whitespace. *)
Lemma split_from_nil (text word : string) :
  split_from word text = [] ↔ word = "" ∧ all_space text = true.
Proof.
  revert word. induction text as [|c text IH]; intros word; cbn [split_from all_space].
  - destruct word; by split; [|intros [? _]].
  - destruct (is_space c) eqn:Hc; cbn [andb].
    + destruct word as [|a w]; [apply IH|]. by split; [|intros [? _]].
    + rewrite IH. split; [intros [Hsnoc _]|by intros [_ ?]].
      by destruct (app_snoc_nonempty word c).
Qed.

(** A stretch without whitespace joins the pending word. *)
Lemma split_from_no_space (u word rest : string) :
  no_space u = true → split_from word (u +:+ rest) = split_from (word +:+ u) rest.
Proof.
  revert word. induction u as [|c u IH]; intros word Hu.
  - by rewrite app_empty_r.
  - cbn [no_space] in Hu. apply andb_prop in Hu as [Hc Hu].
    apply negb_true_iff in Hc.
    rewrite app_cons. cbn [split_from]. rewrite Hc, IH by exact Hu.
    by rewrite app_assoc_string.
Qed.

(** A space ends a pending word. *)
Lemma split_from_space (word rest : string) :
  word ≠ "" → split_from word (" " +:+ rest) = word :: split_from "" rest.
Proof. intros Hne. change (" " +:+ rest) with (String " " rest). by destruct word. Qed.

Lemma split_join (words : list string) :
  Forall (λ w, is_word w = true) words → split (Str.join " " words) = words.
Proof.
  unfold split. induction 1 as [|w words Hw Hwords IH]; [reflexivity|].
  unfold is_word in Hw. apply andb_prop in Hw as [Hne Hns].
  apply negb_true_iff, String.eqb_neq in Hne.
  destruct words as [|w' words].
  - cbn [Str.join]. rewrite <- (app_empty_r w) at 1.
    rewrite split_from_no_space by exact Hns. cbn [split_from].
    change ("" +:+ w) with w. by destruct w.
  - change (Str.join " " (w :: w' :: words))
      with (w +:+ " " +:+ Str.join " " (w' :: words)).
    rewrite split_from_no_space by exact Hns. change ("" +:+ w) with w.
    rewrite split_from_space by exact Hne. by rewrite IH.
Qed.

End SplitFacts.

(** X16. The token count is zero exactly on a text made of whitespace
    only, the empty text among them, so it is never 1 on the empty text;
    and every token counted is a non-empty word without whitespace. *)
Theorem count_tokens_zero (text : string) :
  (count_tokens text = 0%nat ↔ all_space text = true)
  ∧ count_tokens "" = 0%nat
  ∧ Forall (λ token, is_word token = true) (split text).
Proof.
  split; [|split; [reflexivity|by apply split_from_words]].
  unfold count_tokens, split. rewrite length_zero_iff_nil, split_from_nil.
  split; [by intros [_ ?]|by split].
Qed.

(** X17. Words joined by single spaces are split into the same words
    again, so the token count of such a sentence is its number of words. *)
Theorem count_tokens_of_words (words : list string) :
  Forall (λ w, is_word w = true) words →
  split (Str.join " " words) = words
  ∧ count_tokens (Str.join " " words) = length words.
Proof.
  intros Hwords. unfold count_tokens. by rewrite split_join.
Qed.

(** The sentence of [test_count_tokens] has five tokens. *)
Lemma count_tokens_of_words_witness :
  count_tokens "This is a test sentence." = 5%nat.
Proof.
  refine (proj2 (count_tokens_of_words ["This"; "is"; "a"; "test"; "sentence."] _)).
  repeat constructor.
Defined.
